(** * Spoolman-NFC: the [nfc_id] extra-field migration

    A shallow embedding of
    [migrations/versions/2026_01_03_1200-a1b2c3d4e5f6_add_nfc_id_extra_field.py]
    ([upgrade] and [downgrade]) and the properties of its merge / unmerge
    logic over the [setting] table. *)

From Stdlib Require Import ZArith PrimFloat.
From stdpp Require Import gmap strings list fin_maps.

Local Open Scope string_scope.
Local Set Warnings "-register-all".

(** ** Python values, as [json.loads] produces them *)

Module Py.

(** [json.loads] yields [None], [bool], [int], [float], [str], [list] and
    [dict] (with [str] keys).  A [dict] is kept as the sequence of its items
    in insertion order, which is also the order [json.dumps] prints them in;
    the keys of a Python [dict] are distinct. *)
Inductive val : Type :=
| PyNone
| PyBool (b : bool)
| PyInt (n : Z)
| PyFloat (x : float)
| PyStr (s : string)
| PyList (items : list val)
| PyDict (items : list (string * val)).

(** The exceptions the migration can meet. *)
Inductive exn : Type :=
| JSONDecodeError
| ValueError
| RecursionError
| TypeError
| AttributeError
| IntegrityError.

(** The result of evaluating a Python expression. *)
Inductive outcome (A : Type) : Type :=
| Return (a : A)
| Raise (e : exn).
Arguments Return {A} a.
Arguments Raise {A} e.

Definition is_dict (v : val) : bool :=
  match v with PyDict _ => true | _ => false end.

(** [d[k]] on the items of a [dict]. *)
Fixpoint dict_lookup (items : list (string * val)) (k : string) : option val :=
  match items with
  | [] => None
  | (k', v) :: rest => if String.eqb k' k then Some v else dict_lookup rest k
  end.

(** [obj.get(k)]: only a [dict] has the method; a missing key gives [None]. *)
Definition get (obj : val) (k : string) : outcome val :=
  match obj with
  | PyDict items =>
      Return (match dict_lookup items k with Some v => v | None => PyNone end)
  | _ => Raise AttributeError
  end.

(** [v == s] for a [str] literal [s]: no other type compares equal to it. *)
Definition eq_str (v : val) (s : string) : bool :=
  match v with PyStr s' => String.eqb s' s | _ => false end.

(** [iter(v)]: a [list] yields its elements, a [dict] its keys, a [str] its
    characters (each a one-character [str]); nothing else is iterable. *)
Definition iter (v : val) : outcome (list val) :=
  match v with
  | PyList items => Return items
  | PyDict items => Return (map (fun kv => PyStr (fst kv)) items)
  | PyStr s =>
      Return (map (fun c => PyStr (String c EmptyString)) (String.list_ascii_of_string s))
  | _ => Raise TypeError
  end.

(** [obj.insert(0, x)]: only a [list] has the method. *)
Definition insert0 (obj x : val) : outcome val :=
  match obj with
  | PyList items => Return (PyList (x :: items))
  | _ => Raise AttributeError
  end.

End Py.
Import Py.

(** ** The [setting] table *)

(** Why [json.loads] rejects a text: it is not JSON, an integer in it has
    more digits than the interpreter converts, or it is nested deeper than
    the interpreter recurses. *)
Inductive decode_failure : Type :=
| Malformed
| IntegerTooLong
| NestingTooDeep.

(** What [json.loads] raises in each case. *)
Definition decode_error (why : decode_failure) : exn :=
  match why with
  | Malformed => JSONDecodeError
  | IntegerTooLong => ValueError
  | NestingTooDeep => RecursionError
  end.

(** The text of the [value] column.  The migration only ever passes it to
    [json.loads] and overwrites it with the output of [json.dumps], so a text
    is represented by what [json.loads] makes of it: either the decoder
    rejects it, for one of the reasons above, or it is the encoding of a
    value (and [json.loads] of [json.dumps v] is [v] again). *)
Inductive text : Type :=
| Undecodable (raw : string) (why : decode_failure)
| Encoding (v : val).

Definition json_loads (s : text) : outcome val :=
  match s with
  | Undecodable _ why => Raise (decode_error why)
  | Encoding v => Return v
  end.

Definition json_dumps (v : val) : text := Encoding v.

(** Modelled from the spec: the [setting] table itself is declared outside
    this migration.  A Setting Entry is a key-value record with a unique
    string [key], a [value] and a [last_updated] timestamp; the table is the
    finite map from [key] to the other two columns. *)
Record setting : Type := Setting {
  value : text;
  last_updated : Z
}.

(** The statements that change the table. *)
Inductive write : Type :=
| Insert (key : string) (v : text) (updated : Z)
| Update (key : string) (v : text) (updated : Z).

(** The connection of [op.get_bind()]: the table, and the writes executed
    on it so far, oldest first. *)
Record connection : Type := Connection {
  table : gmap string setting;
  writes : list write
}.

(** A computation on the connection: it returns or raises, and leaves the
    connection as it was at that point. *)
Definition db (A : Type) : Type := connection -> outcome A * connection.

Definition ret {A} (a : A) : db A := fun c => (Return a, c).

Definition bind {A B} (m : db A) (k : A -> db B) : db B :=
  fun c =>
    match m c with
    | (Return a, c') => k a c'
    | (Raise e, c') => (Raise e, c')
    end.

(** A pure Python expression evaluated in the middle of the function. *)
Definition eval {A} (o : outcome A) : db A := fun c => (o, c).

Notation "'let*' x ':=' m 'in' k" := (bind m (fun x => k))
  (at level 10, x name, m at level 100, k at level 200, only parsing).

Definition exec {A} (m : db A) (c : connection) : connection := snd (m c).
Definition result {A} (m : db A) (c : connection) : outcome A := fst (m c).

(** [SELECT value FROM setting WHERE key = k] followed by [fetchone()]. *)
Definition select_value (k : string) : db (option text) :=
  fun c => (Return (value <$> table c !! k), c).

(** [UPDATE setting SET value = v, last_updated = updated WHERE key = k]:
    the row of [k] is rewritten when there is one. *)
Definition execute_update (k : string) (v : text) (updated : Z) : db unit :=
  fun c =>
    (Return tt,
     {| table := match table c !! k with
                 | Some _ => <[k := Setting v updated]> (table c)
                 | None => table c
                 end;
        writes := writes c ++ [Update k v updated] |}).

(** [INSERT INTO setting (key, value, last_updated) VALUES (k, v, updated)]:
    [key] is unique, so a second row for [k] is refused. *)
Definition execute_insert (k : string) (v : text) (updated : Z) : db unit :=
  fun c =>
    match table c !! k with
    | Some _ => (Raise IntegrityError, c)
    | None =>
        (Return tt,
         {| table := <[k := Setting v updated]> (table c);
            writes := writes c ++ [Insert k v updated] |})
    end.

(** ** The migration *)

Definition settings_key : string := "extra_fields_spool".

(** The [nfc_field] literal of [upgrade] (the same in both branches). *)
Definition nfc_field : val :=
  PyDict [ ("key", PyStr "nfc_id");
           ("entity_type", PyStr "spool");
           ("name", PyStr "NFC Tag ID");
           ("order", PyInt 0);
           ("unit", PyNone);
           ("field_type", PyStr "text");
           ("default_value", PyNone);
           ("choices", PyNone);
           ("multi_choice", PyNone) ].

(** [any(field.get("key") == "nfc_id" for field in fields)], once [fields]
    is being iterated: [any] stops at the first true element, so the elements
    after it are never evaluated. *)
Fixpoint any_key_is_nfc_id (fields : list val) : outcome bool :=
  match fields with
  | [] => Return false
  | field :: rest =>
      match get field "key" with
      | Raise e => Raise e
      | Return k => if eq_str k "nfc_id" then Return true else any_key_is_nfc_id rest
      end
  end.

(** [[field for field in fields if field.get("key") != "nfc_id"]], once
    [fields] is being iterated: every element is evaluated, in order. *)
Fixpoint without_nfc_id (fields : list val) : outcome (list val) :=
  match fields with
  | [] => Return []
  | field :: rest =>
      match get field "key" with
      | Raise e => Raise e
      | Return k =>
          match without_nfc_id rest with
          | Raise e => Raise e
          | Return kept => Return (if negb (eq_str k "nfc_id") then field :: kept else kept)
          end
      end
  end.

Definition outcome_bind {A B} (o : outcome A) (k : A -> outcome B) : outcome B :=
  match o with
  | Return a => k a
  | Raise e => Raise e
  end.

(** [upgrade()]; [now] is what [datetime.utcnow()] answers. *)
Definition upgrade (now : Z) : db unit :=
  let* row := select_value settings_key in
  match row with
  | Some stored =>
      let* existing_fields := eval (json_loads stored) in
      let* found := eval (outcome_bind (iter existing_fields) any_key_is_nfc_id) in
      if negb found then
        let* existing_fields := eval (insert0 existing_fields nfc_field) in
        execute_update settings_key (json_dumps existing_fields) now
      else ret tt
  | None =>
      execute_insert settings_key (json_dumps (PyList [nfc_field])) now
  end.

(** [downgrade()]; [now] is what [datetime.utcnow()] answers. *)
Definition downgrade (now : Z) : db unit :=
  let* row := select_value settings_key in
  match row with
  | Some stored =>
      let* existing_fields := eval (json_loads stored) in
      let* existing_fields := eval (outcome_bind (iter existing_fields) without_nfc_id) in
      execute_update settings_key (json_dumps (PyList existing_fields)) now
  | None => ret tt
  end.

(** The text stored under [extra_fields_spool], if the entry exists. *)
Definition stored_fields (c : connection) : option text :=
  value <$> table c !! settings_key.

(** ** The pure core of the two functions *)

(** What [upgrade] computes from the stored text before it writes:
    [Return None] when it decides not to write. *)
Definition merged (stored : text) : outcome (option val) :=
  outcome_bind (json_loads stored) (fun existing_fields =>
  outcome_bind (outcome_bind (iter existing_fields) any_key_is_nfc_id) (fun found =>
  if negb found then
    outcome_bind (insert0 existing_fields nfc_field) (fun fields => Return (Some fields))
  else Return None)).

(** What [downgrade] computes from the stored text before it writes. *)
Definition unmerged (stored : text) : outcome val :=
  outcome_bind (json_loads stored) (fun existing_fields =>
  outcome_bind (outcome_bind (iter existing_fields) without_nfc_id) (fun fields =>
  Return (PyList fields))).

(** The key of a field descriptor, as [field.get("key")] reads it. *)
Definition key_of (field : val) : val :=
  match get field "key" with
  | Return k => k
  | Raise _ => PyNone
  end.

Definition has_nfc_key (field : val) : bool := eq_str (key_of field) "nfc_id".

(** Two fields that [field.get("key")] cannot tell apart. *)
Definition same_key (field field' : val) : Prop := get field "key" = get field' "key".

(** A Field List: every element is an object. *)
Definition field_list (fields : list val) : Prop :=
  Forall (fun field => is_dict field = true) fields.

(** The stored text is a JSON array of objects. *)
Definition well_formed (stored : text) : bool :=
  match stored with
  | Encoding (PyList fields) => forallb is_dict fields
  | _ => false
  end.

(** [None], [bool], [int] and [float]: the decoded values that cannot be
    iterated. *)
Definition is_scalar (v : val) : bool :=
  match v with
  | PyNone | PyBool _ | PyInt _ | PyFloat _ => true
  | _ => false
  end.

(** A decoded [str] or [dict]: iterable, but neither has [insert], and
    what it yields has no [get]. *)
Definition is_str_or_dict (v : val) : bool :=
  match v with
  | PyStr _ | PyDict _ => true
  | _ => false
  end.

(** [len(v) == 0] for a [str], [list] or [dict]. *)
Definition is_empty (v : val) : bool :=
  match v with
  | PyStr EmptyString | PyList [] | PyDict [] => true
  | _ => false
  end.

(** The row a write addresses, and the timestamp it carries. *)
Definition write_key (w : write) : string :=
  match w with Insert k _ _ | Update k _ _ => k end.

Definition write_updated (w : write) : Z :=
  match w with Insert _ _ t | Update _ _ t => t end.

(** The same migration step run again and again, once per clock reading;
    a raise stops the sequence. *)
Fixpoint run_each (step : Z -> db unit) (clock : list Z) : db unit :=
  match clock with
  | [] => ret tt
  | now :: later => let* _ := step now in run_each step later
  end.

(** ** Sample connections *)

Definition material : val := PyDict [("key", PyStr "material")].

Definition color : val := PyDict [("key", PyStr "color"); ("order", PyInt 2)].
Definition custom_nfc : val := PyDict [("key", PyStr "nfc_id"); ("name", PyStr "Tag")].

Definition unkeyed : val := PyDict [("name", PyStr "Colour")].

Definition conn_of (v : text) (t : Z) : connection :=
  {| table := {[ settings_key := Setting v t ]}; writes := [] |}.

Definition empty_conn : connection := {| table := ∅; writes := [] |}.

(** A table with a second, unrelated setting next to [extra_fields_spool]. *)
Definition conn_with_currency (v : text) (t : Z) : connection :=
  {| table := <[ "currency" := Setting (Encoding (PyStr "EUR")) 0 ]>
                {[ settings_key := Setting v t ]};
     writes := [] |}.

Arguments execute_update : simpl never.
Arguments execute_insert : simpl never.

Ltac run :=
  unfold upgrade, downgrade, bind, select_value, eval, ret, exec, result,
    stored_fields; simpl.

(** ** The scenarios of the specification *)

Example upgrade_absent_scenario :
  upgrade 7 empty_conn =
  (Return tt,
   {| table := {[ settings_key := Setting (Encoding (PyList [nfc_field])) 7 ]};
      writes := [Insert settings_key (Encoding (PyList [nfc_field])) 7] |}).
Proof. vm_compute. reflexivity. Qed.

Example upgrade_material_scenario :
  stored_fields (exec (upgrade 7) (conn_of (Encoding (PyList [material])) 1)) =
  Some (Encoding (PyList [nfc_field; material])).
Proof. vm_compute. reflexivity. Qed.

Example downgrade_scenario :
  stored_fields (exec (downgrade 7) (conn_of (Encoding (PyList [nfc_field; material])) 1)) =
  Some (Encoding (PyList [material])).
Proof. vm_compute. reflexivity. Qed.

(** ** Unfolding the two functions *)

Lemma upgrade_unfold now c :
  upgrade now c =
  match table c !! settings_key with
  | None => execute_insert settings_key (json_dumps (PyList [nfc_field])) now c
  | Some row =>
      match merged (value row) with
      | Raise e => (Raise e, c)
      | Return None => (Return tt, c)
      | Return (Some fields) => execute_update settings_key (json_dumps fields) now c
      end
  end.
Proof.
  run. destruct (table c !! settings_key) as [row|]; simpl; [|reflexivity].
  unfold merged. destruct (json_loads (value row)) as [v|e]; simpl; [|reflexivity].
  destruct (outcome_bind (iter v) any_key_is_nfc_id) as [[|]|e]; simpl;
    try reflexivity.
  destruct (insert0 v nfc_field); reflexivity.
Qed.

Lemma downgrade_unfold now c :
  downgrade now c =
  match table c !! settings_key with
  | None => (Return tt, c)
  | Some row =>
      match unmerged (value row) with
      | Raise e => (Raise e, c)
      | Return fields => execute_update settings_key (json_dumps fields) now c
      end
  end.
Proof.
  run. destruct (table c !! settings_key) as [row|]; simpl; [|reflexivity].
  unfold unmerged. destruct (json_loads (value row)) as [v|e]; simpl; [|reflexivity].
  destruct (outcome_bind (iter v) without_nfc_id); reflexivity.
Qed.

(** On a Field List the two scans never raise, and are [existsb] and
    [filter]. *)
Lemma any_key_is_nfc_id_fields fields :
  field_list fields ->
  any_key_is_nfc_id fields = Return (existsb has_nfc_key fields).
Proof.
  induction 1 as [|field rest Hd _ IH]; simpl; [reflexivity|].
  destruct field; try discriminate. unfold has_nfc_key, key_of. simpl.
  destruct (eq_str _ _); simpl; [reflexivity|exact IH].
Qed.

Lemma without_nfc_id_fields fields :
  field_list fields ->
  without_nfc_id fields =
  Return (List.filter (fun field => negb (has_nfc_key field)) fields).
Proof.
  induction 1 as [|field rest Hd _ IH]; simpl; [reflexivity|].
  destruct field; try discriminate. rewrite IH. unfold has_nfc_key, key_of. simpl.
  reflexivity.
Qed.

(** A string of characters, or the keys of a non-empty [dict], stop both
    scans at once: a [str] has no [get]. *)
Lemma any_key_is_nfc_id_strs {A} (f : A -> string) (xs : list A) :
  xs <> [] ->
  any_key_is_nfc_id (map (fun x => PyStr (f x)) xs) = Raise AttributeError.
Proof. destruct xs; [congruence|reflexivity]. Qed.

Lemma without_nfc_id_strs {A} (f : A -> string) (xs : list A) :
  xs <> [] ->
  without_nfc_id (map (fun x => PyStr (f x)) xs) = Raise AttributeError.
Proof. destruct xs; [congruence|reflexivity]. Qed.

(** ** What [merged] and [unmerged] can answer *)

Lemma merged_some stored fields :
  merged stored = Return (Some fields) ->
  exists l, stored = Encoding (PyList l) /\
            any_key_is_nfc_id l = Return false /\
            fields = PyList (nfc_field :: l).
Proof.
  unfold merged. destruct stored as [raw why|v]; simpl; [discriminate|].
  destruct v; simpl; try discriminate.
  - destruct s; simpl; discriminate.
  - destruct (any_key_is_nfc_id items) as [[|]|e] eqn:Hany; simpl; try discriminate.
    intros [= <-]. eauto.
  - destruct items as [|[k v] rest]; simpl; discriminate.
Qed.

Lemma merged_none stored :
  merged stored = Return None ->
  exists l, stored = Encoding (PyList l) /\ any_key_is_nfc_id l = Return true.
Proof.
  unfold merged. destruct stored as [raw why|v]; simpl; [discriminate|].
  destruct v; simpl; try discriminate.
  - destruct s; simpl; discriminate.
  - destruct (any_key_is_nfc_id items) as [[|]|e] eqn:Hany; simpl; try discriminate.
    eauto.
  - destruct items as [|[k v] rest]; simpl; discriminate.
Qed.

Lemma merged_list l :
  merged (Encoding (PyList l)) =
  match any_key_is_nfc_id l with
  | Return true => Return None
  | Return false => Return (Some (PyList (nfc_field :: l)))
  | Raise e => Raise e
  end.
Proof. unfold merged. simpl. destruct (any_key_is_nfc_id l) as [[|]|e]; reflexivity. Qed.

Lemma merged_nfc_first l : merged (Encoding (PyList (nfc_field :: l))) = Return None.
Proof. reflexivity. Qed.

Lemma unmerged_list l :
  unmerged (Encoding (PyList l)) =
  match without_nfc_id l with
  | Return kept => Return (PyList kept)
  | Raise e => Raise e
  end.
Proof. unfold unmerged. simpl. destruct (without_nfc_id l); reflexivity. Qed.

(** What the comprehension keeps is a Field List without the target key,
    so a second pass keeps all of it. *)
Lemma without_nfc_id_kept l kept :
  without_nfc_id l = Return kept ->
  field_list kept /\ existsb has_nfc_key kept = false.
Proof.
  revert kept. induction l as [|field rest IH]; simpl; intros kept.
  - intros [= <-]. split; [constructor|reflexivity].
  - destruct field; simpl; try discriminate.
    destruct (without_nfc_id rest) as [kept'|e]; [|discriminate].
    destruct (IH kept' eq_refl) as [Hfl Hno].
    destruct (eq_str _ _) eqn:Hk; simpl; intros [= <-]; [auto|].
    split; [constructor; [reflexivity|exact Hfl]|].
    simpl. unfold has_nfc_key at 1, key_of. simpl. rewrite Hk. exact Hno.
Qed.

Lemma filter_no_nfc l :
  existsb has_nfc_key l = false ->
  List.filter (fun field => negb (has_nfc_key field)) l = l.
Proof.
  induction l as [|field rest IH]; simpl; [reflexivity|].
  destruct (has_nfc_key field); simpl; [discriminate|].
  intros H. rewrite IH by exact H. reflexivity.
Qed.

Lemma without_nfc_id_again l kept :
  without_nfc_id l = Return kept -> without_nfc_id kept = Return kept.
Proof.
  intros H. destruct (without_nfc_id_kept _ _ H) as [Hfl Hno].
  rewrite without_nfc_id_fields by exact Hfl. rewrite filter_no_nfc by exact Hno.
  reflexivity.
Qed.

Lemma unmerged_return stored fields :
  unmerged stored = Return fields ->
  exists kept, fields = PyList kept /\ without_nfc_id kept = Return kept.
Proof.
  unfold unmerged. destruct (json_loads stored) as [v|e]; simpl; [|discriminate].
  destruct (iter v) as [items|e]; simpl; [|discriminate].
  destruct (without_nfc_id items) as [kept|e] eqn:Hk; simpl; [|discriminate].
  intros [= <-]. exists kept. split; [reflexivity|].
  eapply without_nfc_id_again. exact Hk.
Qed.

(** ** The table after a write *)

Lemma lookup_updated k v now (c : connection) :
  is_Some (table c !! k) ->
  table (exec (execute_update k v now) c) !! k = Some (Setting v now).
Proof.
  intros [row Hrow]. unfold exec, execute_update. simpl. rewrite Hrow.
  apply lookup_insert_eq.
Qed.

Lemma lookup_inserted k v now (c : connection) :
  table c !! k = None ->
  execute_insert k v now c =
    (Return tt, {| table := <[k := Setting v now]> (table c);
                   writes := writes c ++ [Insert k v now] |}).
Proof. intros H. unfold execute_insert. rewrite H. reflexivity. Qed.

(** ** Merge, applied again *)

(** A second [upgrade] finds what the first one left, answers the same and
    changes nothing: neither the table nor the list of writes. *)
Lemma upgrade_twice t1 t2 c :
  upgrade t2 (exec (upgrade t1) c) = (result (upgrade t1) c, exec (upgrade t1) c).
Proof.
  unfold exec, result. rewrite (upgrade_unfold t1 c).
  destruct (table c !! settings_key) as [row|] eqn:Hrow.
  - destruct (merged (value row)) as [[fields|]|e] eqn:Hm; simpl.
    + apply merged_some in Hm as (l & _ & _ & ->).
      rewrite upgrade_unfold. unfold execute_update at 1. simpl.
      rewrite Hrow, lookup_insert_eq. simpl. reflexivity.
    + rewrite upgrade_unfold, Hrow, Hm. reflexivity.
    + rewrite upgrade_unfold, Hrow, Hm. reflexivity.
  - rewrite (lookup_inserted _ _ _ _ Hrow). simpl.
    rewrite upgrade_unfold. simpl. rewrite lookup_insert_eq. reflexivity.
Qed.

Lemma exec_then {A B} (m : db A) (k : db B) c :
  exec (let* _ := m in k) c =
  match result m c with
  | Return _ => exec k (exec m c)
  | Raise _ => exec m c
  end.
Proof. unfold exec, result, bind. destruct (m c) as [[a|e] c']; reflexivity. Qed.

(** C1: whatever the store holds at first (no entry, an entry without an
    [nfc_id] element, an entry with one, or anything else), two [upgrade]s in
    sequence leave the same Field List under [extra_fields_spool] as one. *)
Theorem upgrade_idempotent (t1 t2 : Z) (c : connection) :
  stored_fields (exec (let* _ := upgrade t1 in upgrade t2) c) =
  stored_fields (exec (upgrade t1) c).
Proof.
  rewrite exec_then. destruct (result (upgrade t1) c); [|reflexivity].
  unfold exec at 1. rewrite upgrade_twice. reflexivity.
Qed.

(** ** Unmerge, applied again *)

Lemma stored_fields_updated v now (c : connection) :
  is_Some (table c !! settings_key) ->
  stored_fields (exec (execute_update settings_key v now) c) = Some v.
Proof.
  intros H. unfold stored_fields. rewrite lookup_updated by exact H. reflexivity.
Qed.

Lemma downgrade_exec now c :
  exec (downgrade now) c =
  match table c !! settings_key with
  | None => c
  | Some row =>
      match unmerged (value row) with
      | Raise _ => c
      | Return fields => exec (execute_update settings_key (json_dumps fields) now) c
      end
  end.
Proof.
  unfold exec. rewrite downgrade_unfold.
  destruct (table c !! settings_key) as [row|]; [|reflexivity].
  destruct (unmerged (value row)); reflexivity.
Qed.

Lemma downgrade_twice_fields t1 t2 c :
  stored_fields (exec (downgrade t2) (exec (downgrade t1) c)) =
  stored_fields (exec (downgrade t1) c).
Proof.
  rewrite (downgrade_exec t1 c).
  destruct (table c !! settings_key) as [row|] eqn:Hrow.
  - destruct (unmerged (value row)) as [fields|e] eqn:Hu.
    + apply unmerged_return in Hu as (kept & -> & Hkept).
      assert (Hsome : is_Some (table c !! settings_key)) by (rewrite Hrow; eauto).
      rewrite (stored_fields_updated _ _ _ Hsome).
      rewrite downgrade_exec, (lookup_updated _ _ _ _ Hsome).
      cbn [value]. unfold json_dumps at 1. rewrite unmerged_list, Hkept.
      apply stored_fields_updated. rewrite lookup_updated by exact Hsome. eauto.
    + rewrite downgrade_exec, Hrow, Hu. reflexivity.
  - rewrite downgrade_exec, Hrow. reflexivity.
Qed.

(** When the stored Field List has no [nfc_id] element, [downgrade] still
    issues its [UPDATE]: the same list is written back and [last_updated] is
    refreshed. *)
Lemma downgrade_without_nfc now c row l :
  table c !! settings_key = Some row ->
  value row = Encoding (PyList l) ->
  field_list l ->
  existsb has_nfc_key l = false ->
  downgrade now c =
    (Return tt,
     {| table := <[settings_key := Setting (Encoding (PyList l)) now]> (table c);
        writes := writes c ++ [Update settings_key (Encoding (PyList l)) now] |}).
Proof.
  intros Hrow Hval Hfl Hno. rewrite downgrade_unfold, Hrow, Hval, unmerged_list.
  rewrite without_nfc_id_fields by exact Hfl. rewrite filter_no_nfc by exact Hno.
  unfold execute_update. rewrite Hrow. reflexivity.
Qed.

(** C2, as the code has it: two [downgrade]s in sequence leave the same
    Field List as one; and once no element of the stored list has key
    [nfc_id], a further [downgrade] returns normally and keeps the list as it
    is, but it is a write all the same: one [UPDATE] that stores the same
    list again and sets [last_updated] to the current time. *)
Theorem downgrade_idempotent (t1 t2 : Z) (c : connection) :
  stored_fields (exec (let* _ := downgrade t1 in downgrade t2) c) =
  stored_fields (exec (downgrade t1) c) /\
  forall row l,
    table c !! settings_key = Some row ->
    value row = Encoding (PyList l) ->
    field_list l ->
    existsb has_nfc_key l = false ->
    downgrade t2 c =
      (Return tt,
       {| table := <[settings_key := Setting (Encoding (PyList l)) t2]> (table c);
          writes := writes c ++ [Update settings_key (Encoding (PyList l)) t2] |}) /\
    stored_fields (exec (downgrade t2) c) = stored_fields c.
Proof.
  split.
  - rewrite exec_then. destruct (result (downgrade t1) c); [|reflexivity].
    apply downgrade_twice_fields.
  - intros row l Hrow Hval Hfl Hno.
    pose proof (downgrade_without_nfc t2 c row l Hrow Hval Hfl Hno) as Hd.
    split; [exact Hd|].
    unfold exec, stored_fields. rewrite Hd. simpl.
    rewrite lookup_insert_eq, Hrow. simpl. rewrite Hval. reflexivity.
Qed.

Lemma downgrade_idempotent_witness :
  stored_fields (exec (downgrade 9) (conn_of (Encoding (PyList [material])) 1)) =
  stored_fields (conn_of (Encoding (PyList [material])) 1).
Proof.
  destruct (downgrade_idempotent 7 9 (conn_of (Encoding (PyList [material])) 1))
    as [_ H].
  refine (proj2 (H (Setting (Encoding (PyList [material])) 1) [material] _ _ _ _)).
  - reflexivity.
  - reflexivity.
  - constructor; [reflexivity|constructor].
  - reflexivity.
Defined.

(** C2 as stated does not hold: with [nfc_id] already absent, [downgrade]
    is not a no-op on the store, it writes and moves [last_updated]. *)
Lemma downgrade_absent_key_still_writes :
  existsb has_nfc_key [material] = false /\
  exec (downgrade 9) (conn_of (Encoding (PyList [material])) 1) <>
    conn_of (Encoding (PyList [material])) 1 /\
  writes (exec (downgrade 9) (conn_of (Encoding (PyList [material])) 1)) =
    [Update settings_key (Encoding (PyList [material])) 9] /\
  last_updated <$> table (exec (downgrade 9) (conn_of (Encoding (PyList [material])) 1))
                     !! settings_key = Some 9%Z.
Proof.
  split; [reflexivity|]. split; [|split; reflexivity].
  intros H. apply (f_equal writes) in H. discriminate H.
Qed.

(** ** Merge on a Field List *)

Lemma upgrade_without_nfc now c row l :
  table c !! settings_key = Some row ->
  value row = Encoding (PyList l) ->
  field_list l ->
  existsb has_nfc_key l = false ->
  upgrade now c =
    (Return tt,
     {| table := <[settings_key := Setting (Encoding (PyList (nfc_field :: l))) now]>
                   (table c);
        writes := writes c ++
                  [Update settings_key (Encoding (PyList (nfc_field :: l))) now] |}).
Proof.
  intros Hrow Hval Hfl Hno. rewrite upgrade_unfold, Hrow, Hval, merged_list.
  rewrite any_key_is_nfc_id_fields by exact Hfl. rewrite Hno.
  unfold execute_update. rewrite Hrow. reflexivity.
Qed.

Lemma upgrade_absent now c :
  table c !! settings_key = None ->
  upgrade now c =
    (Return tt,
     {| table := <[settings_key := Setting (Encoding (PyList [nfc_field])) now]> (table c);
        writes := writes c ++ [Insert settings_key (Encoding (PyList [nfc_field])) now] |}).
Proof.
  intros Hrow. rewrite upgrade_unfold, Hrow. apply lookup_inserted. exact Hrow.
Qed.

Lemma upgrade_with_nfc now c row l :
  table c !! settings_key = Some row ->
  value row = Encoding (PyList l) ->
  any_key_is_nfc_id l = Return true ->
  upgrade now c = (Return tt, c).
Proof.
  intros Hrow Hval Hany. rewrite upgrade_unfold, Hrow, Hval, merged_list, Hany.
  reflexivity.
Qed.

Lemma stored_fields_lookup c v :
  stored_fields c = Some v ->
  exists row, table c !! settings_key = Some row /\ value row = v.
Proof.
  unfold stored_fields. destruct (table c !! settings_key) as [row|]; [|discriminate].
  intros [= <-]. eauto.
Qed.

(** ** Unmerge, then merge again *)

Lemma downgrade_upgrade_restores t1 t2 c row l :
  table c !! settings_key = Some row ->
  value row = Encoding (PyList (nfc_field :: l)) ->
  field_list l ->
  existsb has_nfc_key l = false ->
  (let* _ := downgrade t1 in upgrade t2) c =
    (Return tt,
     {| table := <[settings_key := Setting (Encoding (PyList (nfc_field :: l))) t2]>
                   (table c);
        writes := writes c ++
                  [Update settings_key (Encoding (PyList l)) t1;
                   Update settings_key (Encoding (PyList (nfc_field :: l))) t2] |}).
Proof.
  intros Hrow Hval Hfl Hno. unfold bind at 1.
  rewrite downgrade_unfold, Hrow, Hval, unmerged_list.
  assert (Hfl' : field_list (nfc_field :: l)) by (constructor; [reflexivity|exact Hfl]).
  rewrite without_nfc_id_fields by exact Hfl'.
  cbn [List.filter]. change (has_nfc_key nfc_field) with true. cbn [negb].
  rewrite filter_no_nfc by exact Hno.
  unfold execute_update at 1. rewrite Hrow.
  erewrite upgrade_without_nfc; [| apply lookup_insert_eq | reflexivity | exact Hfl | exact Hno ].
  cbn [table writes]. rewrite insert_insert_eq, <- app_assoc. reflexivity.
Qed.

(** C3, as the code has it: when the forward merge leaves the descriptor
    first in the stored list and no other element has key [nfc_id] (which is
    so whenever the merge inserted it), [downgrade] followed by [upgrade]
    returns normally and restores that same list, element for element. *)
Theorem downgrade_then_upgrade_restores (t0 t1 t2 : Z) (c : connection) (l : list val) :
  result (upgrade t0) c = Return tt ->
  stored_fields (exec (upgrade t0) c) = Some (Encoding (PyList (nfc_field :: l))) ->
  field_list l ->
  existsb has_nfc_key l = false ->
  result (let* _ := downgrade t1 in upgrade t2) (exec (upgrade t0) c) = Return tt /\
  stored_fields (exec (let* _ := downgrade t1 in upgrade t2) (exec (upgrade t0) c)) =
  stored_fields (exec (upgrade t0) c).
Proof.
  intros _ Hstored Hfl Hno.
  set (c1 := exec (upgrade t0) c) in *.
  destruct (stored_fields_lookup _ _ Hstored) as (row & Hrow & Hval).
  unfold result, exec.
  rewrite (downgrade_upgrade_restores t1 t2 c1 row l Hrow Hval Hfl Hno).
  split; [reflexivity|]. rewrite Hstored. unfold stored_fields. cbn [snd table].
  rewrite lookup_insert_eq. reflexivity.
Qed.

(** Both ways a merge inserts the descriptor lead to such a state. *)
Lemma upgrade_inserting_state now c :
  table c !! settings_key = None \/
  (exists row l, table c !! settings_key = Some row /\
                 value row = Encoding (PyList l) /\
                 field_list l /\ existsb has_nfc_key l = false) ->
  result (upgrade now) c = Return tt /\
  exists l, stored_fields (exec (upgrade now) c) = Some (Encoding (PyList (nfc_field :: l))) /\
            field_list l /\ existsb has_nfc_key l = false.
Proof.
  intros [Hrow | (row & l & Hrow & Hval & Hfl & Hno)].
  - unfold result, exec, stored_fields. rewrite (upgrade_absent _ _ Hrow). cbn [fst snd table].
    rewrite lookup_insert_eq. split; [reflexivity|].
    exists []. repeat split. constructor.
  - unfold result, exec, stored_fields.
    rewrite (upgrade_without_nfc _ _ _ _ Hrow Hval Hfl Hno). cbn [fst snd table].
    rewrite lookup_insert_eq. split; [reflexivity|]. exists l. auto.
Qed.

Lemma downgrade_then_upgrade_restores_witness :
  stored_fields (exec (let* _ := downgrade 5 in upgrade 7)
                   (exec (upgrade 3) (conn_of (Encoding (PyList [material])) 1))) =
  stored_fields (exec (upgrade 3) (conn_of (Encoding (PyList [material])) 1)).
Proof.
  refine (proj2 (downgrade_then_upgrade_restores 3 5 7
                   (conn_of (Encoding (PyList [material])) 1) [material] _ _ _ _)).
  - reflexivity.
  - reflexivity.
  - constructor; [reflexivity|constructor].
  - reflexivity.
Defined.

(** C3 as stated does not hold: a list that already had an [nfc_id]
    element behind another field is left as it is by the forward merge, yet
    unmerge and merge bring the descriptor back in front. *)
Lemma downgrade_then_upgrade_reorders :
  result (upgrade 3) (conn_of (Encoding (PyList [material; nfc_field])) 1) = Return tt /\
  stored_fields (exec (upgrade 3) (conn_of (Encoding (PyList [material; nfc_field])) 1)) =
    Some (Encoding (PyList [material; nfc_field])) /\
  stored_fields (exec (let* _ := downgrade 5 in upgrade 7)
                   (exec (upgrade 3) (conn_of (Encoding (PyList [material; nfc_field])) 1))) =
    Some (Encoding (PyList [nfc_field; material])) /\
  stored_fields (exec (let* _ := downgrade 5 in upgrade 7)
                   (exec (upgrade 3) (conn_of (Encoding (PyList [material; nfc_field])) 1))) <>
  stored_fields (exec (upgrade 3) (conn_of (Encoding (PyList [material; nfc_field])) 1)).
Proof.
  split; [reflexivity|]. split; [reflexivity|]. split; [reflexivity|].
  intros H. vm_compute in H. discriminate H.
Qed.

(** ** Stored values that are not a JSON array of objects *)

Lemma field_list_forallb l : field_list l <-> forallb is_dict l = true.
Proof.
  unfold field_list. induction l as [|field rest IH]; simpl.
  - split; [reflexivity|constructor].
  - rewrite andb_true_iff, <- IH. split.
    + inversion 1; subst; auto.
    + intros [Hd Hr]. constructor; assumption.
Qed.

(** A scan that reaches the end of the list has found an object at every
    position. *)
Lemma any_key_is_nfc_id_false l :
  any_key_is_nfc_id l = Return false -> forallb is_dict l = true.
Proof.
  induction l as [|field rest IH]; simpl; [reflexivity|].
  destruct field; simpl; try discriminate.
  destruct (eq_str _ _); [discriminate|exact IH].
Qed.







(** Nor does [upgrade] always raise: the scan stops at the [nfc_id] element
    and never looks at the number behind it. *)
Example upgrade_skips_trailing_number :
  well_formed (Encoding (PyList [nfc_field; PyInt 5])) = false /\
  upgrade 7 (conn_of (Encoding (PyList [nfc_field; PyInt 5])) 1) =
    (Return tt, conn_of (Encoding (PyList [nfc_field; PyInt 5])) 1).
Proof. split; reflexivity. Qed.

(** ** What merge and unmerge write *)

(** C5: on a stored Field List with no [nfc_id] element, [upgrade] writes
    back the descriptor followed by the original list, untouched and in its
    order; with no Setting Entry at all, it creates the entry with the
    one-element list of the descriptor. *)
Theorem upgrade_prepends_descriptor (now : Z) (c : connection) :
  (forall row l,
     table c !! settings_key = Some row ->
     value row = Encoding (PyList l) ->
     field_list l ->
     existsb has_nfc_key l = false ->
     upgrade now c =
       (Return tt,
        {| table := <[settings_key := Setting (Encoding (PyList ([nfc_field] ++ l))) now]>
                      (table c);
           writes := writes c ++
                     [Update settings_key (Encoding (PyList ([nfc_field] ++ l))) now] |})) /\
  (table c !! settings_key = None ->
   upgrade now c =
     (Return tt,
      {| table := <[settings_key := Setting (Encoding (PyList [nfc_field])) now]> (table c);
         writes := writes c ++ [Insert settings_key (Encoding (PyList [nfc_field])) now] |})).
Proof.
  split.
  - intros row l. apply upgrade_without_nfc.
  - apply upgrade_absent.
Qed.

Lemma upgrade_prepends_descriptor_witness :
  upgrade 7 (conn_of (Encoding (PyList [material])) 1) =
    (Return tt,
     {| table := <[settings_key := Setting (Encoding (PyList [nfc_field; material])) 7]>
                   (table (conn_of (Encoding (PyList [material])) 1));
        writes := [Update settings_key (Encoding (PyList [nfc_field; material])) 7] |}) /\
  upgrade 7 empty_conn =
    (Return tt,
     {| table := <[settings_key := Setting (Encoding (PyList [nfc_field])) 7]> ∅;
        writes := [Insert settings_key (Encoding (PyList [nfc_field])) 7] |}).
Proof.
  split.
  - refine (proj1 (upgrade_prepends_descriptor 7 (conn_of (Encoding (PyList [material])) 1))
              (Setting (Encoding (PyList [material])) 1) [material] _ _ _ _).
    + reflexivity.
    + reflexivity.
    + constructor; [reflexivity|constructor].
    + reflexivity.
  - refine (proj2 (upgrade_prepends_descriptor 7 empty_conn) _). reflexivity.
Defined.

Lemma downgrade_fields now c row l :
  table c !! settings_key = Some row ->
  value row = Encoding (PyList l) ->
  field_list l ->
  downgrade now c =
    execute_update settings_key
      (Encoding (PyList (List.filter (fun field => negb (has_nfc_key field)) l))) now c.
Proof.
  intros Hrow Hval Hfl. rewrite downgrade_unfold, Hrow, Hval, unmerged_list.
  rewrite without_nfc_id_fields by exact Hfl. reflexivity.
Qed.

(** C6: on a stored Field List, [downgrade] writes back the list without
    the elements whose key is [nfc_id], all of them; the other elements stay
    as they are and in their order. *)
Theorem downgrade_removes_by_key (now : Z) (c : connection) (row : setting) (l : list val) :
  table c !! settings_key = Some row ->
  value row = Encoding (PyList l) ->
  field_list l ->
  downgrade now c =
    (Return tt,
     {| table :=
          <[settings_key :=
              Setting (Encoding (PyList (List.filter (fun field => negb (has_nfc_key field)) l)))
                      now]> (table c);
        writes :=
          writes c ++
          [Update settings_key
             (Encoding (PyList (List.filter (fun field => negb (has_nfc_key field)) l)))
             now] |}).
Proof.
  intros Hrow Hval Hfl. rewrite (downgrade_fields now c row l Hrow Hval Hfl).
  unfold execute_update. rewrite Hrow. reflexivity.
Qed.

Lemma downgrade_removes_by_key_witness :
  downgrade 7 (conn_of (Encoding (PyList [material; nfc_field; color; custom_nfc])) 1) =
    (Return tt,
     {| table := <[settings_key := Setting (Encoding (PyList [material; color])) 7]>
                   (table (conn_of (Encoding (PyList [material; nfc_field; color; custom_nfc])) 1));
        writes := [Update settings_key (Encoding (PyList [material; color])) 7] |}).
Proof.
  refine (downgrade_removes_by_key 7
            (conn_of (Encoding (PyList [material; nfc_field; color; custom_nfc])) 1)
            (Setting (Encoding (PyList [material; nfc_field; color; custom_nfc])) 1)
            [material; nfc_field; color; custom_nfc] _ _ _).
  - reflexivity.
  - reflexivity.
  - repeat (constructor; [reflexivity|]). constructor.
Defined.

(** C7: with no Setting Entry under [extra_fields_spool], [downgrade]
    returns and leaves the connection as it was: no entry appears and no
    write is executed. *)
Theorem downgrade_absent_unchanged (now : Z) (c : connection) :
  table c !! settings_key = None ->
  downgrade now c = (Return tt, c).
Proof. intros Hrow. rewrite downgrade_unfold, Hrow. reflexivity. Qed.

Lemma downgrade_absent_unchanged_witness :
  downgrade 7 empty_conn = (Return tt, empty_conn).
Proof. apply (downgrade_absent_unchanged 7 empty_conn). reflexivity. Defined.

(** C9: when some element of the stored list is an object with key
    [nfc_id], [upgrade] executes no write: the connection, and with it the
    value and the [last_updated] of the entry, is as before; on a Field List
    it also returns normally. *)
Theorem upgrade_present_no_write (now : Z) (c : connection) (row : setting) (l : list val) :
  table c !! settings_key = Some row ->
  value row = Encoding (PyList l) ->
  existsb has_nfc_key l = true ->
  exec (upgrade now) c = c /\
  table (exec (upgrade now) c) !! settings_key = Some row /\
  writes (exec (upgrade now) c) = writes c /\
  (field_list l -> upgrade now c = (Return tt, c)).
Proof.
  intros Hrow Hval Hex.
  assert (Hsame : exec (upgrade now) c = c).
  { unfold exec. rewrite upgrade_unfold, Hrow, Hval, merged_list.
    destruct (any_key_is_nfc_id l) as [[|]|e] eqn:Hany; try reflexivity.
    pose proof (any_key_is_nfc_id_false _ Hany) as Hfl.
    apply field_list_forallb in Hfl.
    rewrite (any_key_is_nfc_id_fields _ Hfl) in Hany. congruence. }
  rewrite Hsame. repeat split; [exact Hrow|].
  intros Hfl. eapply upgrade_with_nfc; [exact Hrow|exact Hval|].
  rewrite any_key_is_nfc_id_fields by exact Hfl. rewrite Hex. reflexivity.
Qed.

Lemma upgrade_present_no_write_witness :
  exec (upgrade 7) (conn_of (Encoding (PyList [material; custom_nfc])) 1) =
  conn_of (Encoding (PyList [material; custom_nfc])) 1.
Proof.
  refine (proj1 (upgrade_present_no_write 7
                   (conn_of (Encoding (PyList [material; custom_nfc])) 1)
                   (Setting (Encoding (PyList [material; custom_nfc])) 1)
                   [material; custom_nfc] _ _ _)).
  - reflexivity.
  - reflexivity.
  - reflexivity.
Defined.

(** ** Distinct keys *)

Lemma has_nfc_key_true field :
  has_nfc_key field = true <-> key_of field = PyStr "nfc_id".
Proof.
  unfold has_nfc_key, eq_str. destruct (key_of field); try (split; discriminate).
  rewrite String.eqb_eq. split; [intros ->; reflexivity|intros [= ->]; reflexivity].
Qed.

Lemma no_nfc_key_not_elem l :
  existsb has_nfc_key l = false -> PyStr "nfc_id" ∉ key_of <$> l.
Proof.
  induction l as [|field rest IH]; simpl.
  - intros _. apply not_elem_of_nil.
  - rewrite orb_false_iff. intros [Hf Hr]. rewrite not_elem_of_cons. split.
    + intros Heq. symmetry in Heq. apply has_nfc_key_true in Heq. congruence.
    + apply IH. exact Hr.
Qed.

Lemma elem_of_keys_filter (p : val -> bool) l k :
  k ∈ key_of <$> List.filter p l -> k ∈ key_of <$> l.
Proof.
  induction l as [|field rest IH]; simpl; [trivial|].
  destruct (p field); simpl.
  - rewrite !elem_of_cons. intros [->|H]; [left; reflexivity|right; apply IH, H].
  - intros H. apply elem_of_cons. right. apply IH, H.
Qed.

Lemma NoDup_keys_filter (p : val -> bool) l :
  NoDup (key_of <$> l) -> NoDup (key_of <$> List.filter p l).
Proof.
  induction l as [|field rest IH]; simpl; [trivial|].
  rewrite NoDup_cons. intros [Hnotin Hnd]. destruct (p field); simpl; [|auto].
  apply NoDup_cons. split; [|auto].
  intros H. apply Hnotin. eapply elem_of_keys_filter. exact H.
Qed.

Lemma filter_nfc_nil l :
  existsb has_nfc_key l = false -> List.filter has_nfc_key l = [].
Proof.
  induction l as [|field rest IH]; simpl; [reflexivity|].
  destruct (has_nfc_key field); simpl; [discriminate|exact IH].
Qed.

Lemma existsb_nfc_false l :
  PyStr "nfc_id" ∉ key_of <$> l -> existsb has_nfc_key l = false.
Proof.
  induction l as [|field rest IH]; simpl; [reflexivity|].
  rewrite not_elem_of_cons. intros [Hne Hr].
  destruct (has_nfc_key field) eqn:Hf; simpl; [|apply IH, Hr].
  apply has_nfc_key_true in Hf. congruence.
Qed.

(** With distinct keys, at most one element carries [nfc_id]. *)
Lemma NoDup_keys_one_nfc l :
  NoDup (key_of <$> l) ->
  existsb has_nfc_key l = true ->
  length (List.filter has_nfc_key l) = 1.
Proof.
  induction l as [|field rest IH]; simpl; [discriminate|].
  rewrite NoDup_cons. intros [Hnotin Hnd].
  destruct (has_nfc_key field) eqn:Hf; simpl.
  - intros _. apply has_nfc_key_true in Hf. rewrite Hf in Hnotin.
    rewrite filter_nfc_nil; [reflexivity|]. apply existsb_nfc_false, Hnotin.
  - apply IH, Hnd.
Qed.

(** C8: when the keys of the stored Field List are pairwise distinct, so
    are the keys of the list [upgrade] leaves, in which exactly one element
    has key [nfc_id], and the keys of the list [downgrade] leaves. *)
Theorem keys_stay_distinct (now : Z) (c : connection) (row : setting) (l : list val) :
  table c !! settings_key = Some row ->
  value row = Encoding (PyList l) ->
  field_list l ->
  NoDup (key_of <$> l) ->
  (exists after_merge,
     result (upgrade now) c = Return tt /\
     stored_fields (exec (upgrade now) c) = Some (Encoding (PyList after_merge)) /\
     NoDup (key_of <$> after_merge) /\
     length (List.filter has_nfc_key after_merge) = 1) /\
  (exists after_unmerge,
     result (downgrade now) c = Return tt /\
     stored_fields (exec (downgrade now) c) = Some (Encoding (PyList after_unmerge)) /\
     NoDup (key_of <$> after_unmerge)).
Proof.
  intros Hrow Hval Hfl Hnd. split.
  - destruct (existsb has_nfc_key l) eqn:Hex.
    + exists l. unfold result, exec, stored_fields.
      erewrite upgrade_with_nfc; [|exact Hrow|exact Hval|].
      * cbn [fst snd]. rewrite Hrow. cbn. rewrite Hval.
        repeat split; [exact Hnd|]. apply NoDup_keys_one_nfc; assumption.
      * rewrite any_key_is_nfc_id_fields by exact Hfl. rewrite Hex. reflexivity.
    + exists (nfc_field :: l). unfold result, exec, stored_fields.
      rewrite (upgrade_without_nfc now c row l Hrow Hval Hfl Hex).
      cbn [fst snd table]. rewrite lookup_insert_eq. repeat split.
      * change (key_of <$> nfc_field :: l) with (PyStr "nfc_id" :: (key_of <$> l)).
        apply NoDup_cons. split; [apply no_nfc_key_not_elem, Hex|exact Hnd].
      * cbn [List.filter]. change (has_nfc_key nfc_field) with true.
        cbn [length]. rewrite filter_nfc_nil by exact Hex. reflexivity.
  - exists (List.filter (fun field => negb (has_nfc_key field)) l).
    unfold result, exec, stored_fields.
    rewrite (downgrade_fields now c row l Hrow Hval Hfl).
    unfold execute_update. rewrite Hrow.
    cbn [fst snd table]. rewrite lookup_insert_eq. repeat split.
    apply NoDup_keys_filter, Hnd.
Qed.

Lemma keys_stay_distinct_witness :
  (exists after_merge,
     result (upgrade 7) (conn_of (Encoding (PyList [material; color])) 1) = Return tt /\
     stored_fields (exec (upgrade 7) (conn_of (Encoding (PyList [material; color])) 1)) =
       Some (Encoding (PyList after_merge)) /\
     NoDup (key_of <$> after_merge) /\
     length (List.filter has_nfc_key after_merge) = 1) /\
  (exists after_unmerge,
     result (downgrade 7) (conn_of (Encoding (PyList [material; color])) 1) = Return tt /\
     stored_fields (exec (downgrade 7) (conn_of (Encoding (PyList [material; color])) 1)) =
       Some (Encoding (PyList after_unmerge)) /\
     NoDup (key_of <$> after_unmerge)).
Proof.
  refine (keys_stay_distinct 7 (conn_of (Encoding (PyList [material; color])) 1)
            (Setting (Encoding (PyList [material; color])) 1) [material; color] _ _ _ _).
  - reflexivity.
  - reflexivity.
  - repeat (constructor; [reflexivity|]). constructor.
  - change (NoDup [PyStr "material"; PyStr "color"]).
    apply NoDup_cons. split.
    + rewrite list_elem_of_singleton. discriminate.
    + apply NoDup_singleton.
Defined.

(** ** Presence is decided by the key alone *)

Lemma any_key_is_nfc_id_same_key l l' :
  Forall2 same_key l l' -> any_key_is_nfc_id l' = any_key_is_nfc_id l.
Proof.
  induction 1 as [|field field' rest rest' Hk _ IH]; simpl; [reflexivity|].
  unfold same_key in Hk. rewrite <- Hk.
  destruct (get field "key") as [k|e]; [|reflexivity].
  destruct (eq_str k "nfc_id"); [reflexivity|exact IH].
Qed.

Lemma has_nfc_key_no_key items :
  dict_lookup items "key" = None -> has_nfc_key (PyDict items) = false.
Proof. intros H. unfold has_nfc_key, key_of. simpl. rewrite H. reflexivity. Qed.

Lemma has_nfc_key_nfc items :
  dict_lookup items "key" = Some (PyStr "nfc_id") -> has_nfc_key (PyDict items) = true.
Proof. intros H. unfold has_nfc_key, key_of. simpl. rewrite H. reflexivity. Qed.

Lemma upgrade_keeps_fields now c row l :
  table c !! settings_key = Some row ->
  value row = Encoding (PyList l) ->
  field_list l ->
  exists kept, stored_fields (exec (upgrade now) c) = Some (Encoding (PyList kept)) /\
               forall field, In field l -> In field kept.
Proof.
  intros Hrow Hval Hfl. unfold exec, stored_fields.
  destruct (existsb has_nfc_key l) eqn:Hex.
  - exists l. erewrite upgrade_with_nfc; [|exact Hrow|exact Hval|].
    + cbn [snd]. rewrite Hrow. cbn. rewrite Hval. auto.
    + rewrite any_key_is_nfc_id_fields by exact Hfl. rewrite Hex. reflexivity.
  - exists (nfc_field :: l). rewrite (upgrade_without_nfc now c row l Hrow Hval Hfl Hex).
    cbn [snd table]. rewrite lookup_insert_eq. split; [reflexivity|].
    intros field Hin. right. exact Hin.
Qed.

Lemma stored_fields_downgrade now c row l :
  table c !! settings_key = Some row ->
  value row = Encoding (PyList l) ->
  field_list l ->
  stored_fields (exec (downgrade now) c) =
  Some (Encoding (PyList (List.filter (fun field => negb (has_nfc_key field)) l))).
Proof.
  intros Hrow Hval Hfl. unfold exec. rewrite (downgrade_fields now c row l Hrow Hval Hfl).
  apply stored_fields_updated. rewrite Hrow. eauto.
Qed.

Lemma has_nfc_key_dict items :
  has_nfc_key (PyDict items) = true ->
  dict_lookup items "key" = Some (PyStr "nfc_id").
Proof.
  intros H. apply has_nfc_key_true in H. unfold key_of in H. simpl in H.
  destruct (dict_lookup items "key") as [v|]; [congruence|discriminate].
Qed.

Lemma no_nfc_key_by_lookup l :
  field_list l ->
  (forall items, In (PyDict items) l -> dict_lookup items "key" <> Some (PyStr "nfc_id")) ->
  existsb has_nfc_key l = false.
Proof.
  intros Hfl Hkeys. destruct (existsb has_nfc_key l) eqn:Hex; [|reflexivity].
  apply existsb_exists in Hex as (field & Hin & Hyes).
  unfold field_list in Hfl. rewrite Forall_forall in Hfl.
  pose proof (Hfl field (proj2 (list_elem_of_In _ _) Hin)) as Hd.
  destruct field; try discriminate Hd.
  destruct (Hkeys items Hin). apply has_nfc_key_dict, Hyes.
Qed.

(** C10: on a stored Field List, both scans read the [key] attribute and
    nothing else.  A list whose elements have the same keys is scanned with
    the same answer.  An element without a [key] attribute counts as not
    matching: it is still there after [upgrade] and after [downgrade], and a
    list in which no element's [key] attribute reads [nfc_id] (elements
    without a [key] included) gets the descriptor inserted in front by
    [upgrade] and is written back whole by [downgrade].  An element with key
    [nfc_id] makes [upgrade] return without touching the connection, whatever
    its other attributes are, and is removed by [downgrade]. *)
Theorem presence_is_by_key_only (now : Z) (c : connection) (row : setting) (l : list val) :
  table c !! settings_key = Some row ->
  value row = Encoding (PyList l) ->
  field_list l ->
  (forall l', Forall2 same_key l l' -> any_key_is_nfc_id l' = any_key_is_nfc_id l) /\
  (forall items,
     In (PyDict items) l ->
     dict_lookup items "key" = None ->
     has_nfc_key (PyDict items) = false /\
     (exists kept, stored_fields (exec (upgrade now) c) = Some (Encoding (PyList kept)) /\
                   In (PyDict items) kept) /\
     (exists kept, stored_fields (exec (downgrade now) c) = Some (Encoding (PyList kept)) /\
                   In (PyDict items) kept)) /\
  (forall items,
     In (PyDict items) l ->
     dict_lookup items "key" = Some (PyStr "nfc_id") ->
     upgrade now c = (Return tt, c) /\
     (exists kept, stored_fields (exec (downgrade now) c) = Some (Encoding (PyList kept)) /\
                   ~ In (PyDict items) kept)) /\
  ((forall items,
      In (PyDict items) l -> dict_lookup items "key" <> Some (PyStr "nfc_id")) ->
   upgrade now c =
     (Return tt,
      {| table := <[settings_key := Setting (Encoding (PyList (nfc_field :: l))) now]>
                    (table c);
         writes := (writes c ++
                    [Update settings_key (Encoding (PyList (nfc_field :: l))) now])%list |}) /\
   downgrade now c =
     (Return tt,
      {| table := <[settings_key := Setting (Encoding (PyList l)) now]> (table c);
         writes := (writes c ++ [Update settings_key (Encoding (PyList l)) now])%list |})).
Proof.
  intros Hrow Hval Hfl. split; [|split; [|split]].
  - apply any_key_is_nfc_id_same_key.
  - intros items Hin Hkey. pose proof (has_nfc_key_no_key items Hkey) as Hno.
    split; [exact Hno|]. split.
    + destruct (upgrade_keeps_fields now c row l Hrow Hval Hfl) as (kept & Hs & Hk).
      exists kept. auto.
    + eexists. split; [apply (stored_fields_downgrade now c row l Hrow Hval Hfl)|].
      apply filter_In. rewrite Hno. auto.
  - intros items Hin Hkey. pose proof (has_nfc_key_nfc items Hkey) as Hyes. split.
    + eapply upgrade_with_nfc; [exact Hrow|exact Hval|].
      rewrite any_key_is_nfc_id_fields by exact Hfl.
      f_equal. apply existsb_exists. eauto.
    + eexists. split; [apply (stored_fields_downgrade now c row l Hrow Hval Hfl)|].
      rewrite filter_In, Hyes. intros [_ H]. discriminate H.
  - intros Hkeys. pose proof (no_nfc_key_by_lookup l Hfl Hkeys) as Hno. split.
    + apply (upgrade_without_nfc now c row l Hrow Hval Hfl Hno).
    + apply (downgrade_without_nfc now c row l Hrow Hval Hfl Hno).
Qed.

Lemma presence_is_by_key_only_witness :
  (has_nfc_key unkeyed = false /\
   (exists kept,
      stored_fields (exec (upgrade 7) (conn_of (Encoding (PyList [unkeyed; custom_nfc])) 1)) =
        Some (Encoding (PyList kept)) /\ In unkeyed kept) /\
   (exists kept,
      stored_fields (exec (downgrade 7) (conn_of (Encoding (PyList [unkeyed; custom_nfc])) 1)) =
        Some (Encoding (PyList kept)) /\ In unkeyed kept)) /\
  (upgrade 7 (conn_of (Encoding (PyList [unkeyed; custom_nfc])) 1) =
     (Return tt, conn_of (Encoding (PyList [unkeyed; custom_nfc])) 1) /\
   (exists kept,
      stored_fields (exec (downgrade 7) (conn_of (Encoding (PyList [unkeyed; custom_nfc])) 1)) =
        Some (Encoding (PyList kept)) /\ ~ In custom_nfc kept)) /\
  (upgrade 7 (conn_of (Encoding (PyList [unkeyed; material])) 1) =
     (Return tt,
      {| table := <[settings_key := Setting (Encoding (PyList [nfc_field; unkeyed; material])) 7]>
                    (table (conn_of (Encoding (PyList [unkeyed; material])) 1));
         writes := [Update settings_key (Encoding (PyList [nfc_field; unkeyed; material])) 7] |}) /\
   downgrade 7 (conn_of (Encoding (PyList [unkeyed; material])) 1) =
     (Return tt,
      {| table := <[settings_key := Setting (Encoding (PyList [unkeyed; material])) 7]>
                    (table (conn_of (Encoding (PyList [unkeyed; material])) 1));
         writes := [Update settings_key (Encoding (PyList [unkeyed; material])) 7] |})).
Proof.
  destruct (presence_is_by_key_only 7 (conn_of (Encoding (PyList [unkeyed; custom_nfc])) 1)
              (Setting (Encoding (PyList [unkeyed; custom_nfc])) 1) [unkeyed; custom_nfc]
              eq_refl eq_refl) as (_ & Hunkeyed & Hnfc & _).
  { repeat (constructor; [reflexivity|]). constructor. }
  destruct (presence_is_by_key_only 7 (conn_of (Encoding (PyList [unkeyed; material])) 1)
              (Setting (Encoding (PyList [unkeyed; material])) 1) [unkeyed; material]
              eq_refl eq_refl) as (_ & _ & _ & Hinsert).
  { repeat (constructor; [reflexivity|]). constructor. }
  split; [|split].
  - apply (Hunkeyed [("name", PyStr "Colour")]); [left; reflexivity|reflexivity].
  - apply (Hnfc [("key", PyStr "nfc_id"); ("name", PyStr "Tag")]);
      [right; left; reflexivity|reflexivity].
  - apply Hinsert. intros items [Heq | [Heq | []]]; injection Heq as <-; discriminate.
Defined.

(** ** Every way a call can end *)

Lemma get_raise field k e : get field k = Raise e -> e = AttributeError.
Proof. destruct field; simpl; congruence. Qed.

Lemma any_key_is_nfc_id_raise l e :
  any_key_is_nfc_id l = Raise e -> e = AttributeError.
Proof.
  induction l as [|field rest IH]; simpl; [discriminate|].
  destruct (get field "key") as [k|e'] eqn:Hget.
  - destruct (eq_str k "nfc_id"); [discriminate|exact IH].
  - intros [= <-]. eapply get_raise, Hget.
Qed.

Lemma without_nfc_id_raise l e :
  without_nfc_id l = Raise e -> e = AttributeError.
Proof.
  induction l as [|field rest IH]; simpl; [discriminate|].
  destruct (get field "key") as [k|e'] eqn:Hget.
  - destruct (without_nfc_id rest) as [kept|e']; [discriminate|].
    intros [= <-]. apply IH. reflexivity.
  - intros [= <-]. eapply get_raise, Hget.
Qed.

Lemma iter_raise v e : iter v = Raise e -> e = TypeError.
Proof. destruct v; simpl; congruence. Qed.

Lemma insert0_raise v x e : insert0 v x = Raise e -> e = AttributeError.
Proof. destruct v; simpl; congruence. Qed.

Lemma json_loads_raise stored e :
  json_loads stored = Raise e -> exists why, e = decode_error why.
Proof. destruct stored as [raw why|v]; simpl; [|discriminate]. intros [= <-]. eauto. Qed.

Lemma decode_error_not_integrity why : decode_error why <> IntegrityError.
Proof. destruct why; discriminate. Qed.

Lemma merged_raise stored e :
  merged stored = Raise e ->
  (exists why, e = decode_error why) \/ e = TypeError \/ e = AttributeError.
Proof.
  unfold merged. destruct (json_loads stored) as [v|e'] eqn:Hl; simpl.
  - destruct (iter v) as [items|e'] eqn:Hi; simpl.
    + destruct (any_key_is_nfc_id items) as [[|]|e'] eqn:Ha; simpl.
      * discriminate.
      * destruct (insert0 v nfc_field) as [fields|e'] eqn:Hins; simpl; [discriminate|].
        intros [= <-]. right. right. eapply insert0_raise, Hins.
      * intros [= <-]. right. right. eapply any_key_is_nfc_id_raise, Ha.
    + intros [= <-]. right. left. eapply iter_raise, Hi.
  - intros [= <-]. left. eapply json_loads_raise, Hl.
Qed.

Lemma unmerged_raise stored e :
  unmerged stored = Raise e ->
  (exists why, e = decode_error why) \/ e = TypeError \/ e = AttributeError.
Proof.
  unfold unmerged. destruct (json_loads stored) as [v|e'] eqn:Hl; simpl.
  - destruct (iter v) as [items|e'] eqn:Hi; simpl.
    + destruct (without_nfc_id items) as [kept|e'] eqn:Hw; simpl; [discriminate|].
      intros [= <-]. right. right. eapply without_nfc_id_raise, Hw.
    + intros [= <-]. right. left. eapply iter_raise, Hi.
  - intros [= <-]. left. eapply json_loads_raise, Hl.
Qed.

(** [upgrade] ends in one of four ways: it raises before any write, it
    returns without writing, or it returns after one [INSERT] or one
    [UPDATE] of the [extra_fields_spool] row. *)
Lemma raise_not_integrity e :
  (exists why, e = decode_error why) \/ e = TypeError \/ e = AttributeError ->
  e <> IntegrityError.
Proof.
  intros [(why & ->) | [-> | ->]]; [apply decode_error_not_integrity|discriminate..].
Qed.

Lemma upgrade_effect now c :
  (exists e, e <> IntegrityError /\ upgrade now c = (Raise e, c)) \/
  (is_Some (table c !! settings_key) /\ upgrade now c = (Return tt, c)) \/
  (exists l w,
     (w = Insert settings_key (Encoding (PyList (nfc_field :: l))) now /\
      table c !! settings_key = None \/
      w = Update settings_key (Encoding (PyList (nfc_field :: l))) now /\
      is_Some (table c !! settings_key)) /\
     upgrade now c =
       (Return tt,
        {| table := <[settings_key := Setting (Encoding (PyList (nfc_field :: l))) now]>
                      (table c);
           writes := writes c ++ [w] |})).
Proof.
  rewrite upgrade_unfold. destruct (table c !! settings_key) as [row|] eqn:Hrow.
  - destruct (merged (value row)) as [[fields|]|e] eqn:Hm.
    + apply merged_some in Hm as (l & _ & _ & ->). right. right.
      exists l, (Update settings_key (Encoding (PyList (nfc_field :: l))) now).
      split; [right; eauto|]. unfold execute_update. rewrite Hrow. reflexivity.
    + right. left. split; [eauto|reflexivity].
    + left. exists e. split; [eapply raise_not_integrity, merged_raise, Hm|reflexivity].
  - right. right. exists [], (Insert settings_key (Encoding (PyList [nfc_field])) now).
    split; [left; auto|]. apply lookup_inserted. exact Hrow.
Qed.

(** [downgrade] ends in one of three ways: it raises before any write, it
    returns without writing (no row), or it returns after one [UPDATE] of the
    [extra_fields_spool] row with a Field List free of [nfc_id]. *)
Lemma downgrade_effect now c :
  (exists e, e <> IntegrityError /\ downgrade now c = (Raise e, c)) \/
  (table c !! settings_key = None /\ downgrade now c = (Return tt, c)) \/
  (exists kept,
     is_Some (table c !! settings_key) /\
     field_list kept /\ existsb has_nfc_key kept = false /\
     downgrade now c =
       (Return tt,
        {| table := <[settings_key := Setting (Encoding (PyList kept)) now]> (table c);
           writes := writes c ++ [Update settings_key (Encoding (PyList kept)) now] |})).
Proof.
  rewrite downgrade_unfold. destruct (table c !! settings_key) as [row|] eqn:Hrow.
  - destruct (unmerged (value row)) as [fields|e] eqn:Hu.
    + right. right. unfold unmerged in Hu.
      destruct (json_loads (value row)) as [v|e]; simpl in Hu; [|discriminate].
      destruct (iter v) as [items|e]; simpl in Hu; [|discriminate].
      destruct (without_nfc_id items) as [kept|e] eqn:Hk; simpl in Hu; [|discriminate].
      injection Hu as <-. destruct (without_nfc_id_kept _ _ Hk) as [Hfl Hno].
      exists kept. split; [eauto|]. split; [exact Hfl|]. split; [exact Hno|].
      unfold execute_update. rewrite Hrow. reflexivity.
    + left. exists e. split; [eapply raise_not_integrity, unmerged_raise, Hu|reflexivity].
  - right. left. split; reflexivity.
Qed.

(** ** What a call leaves alone *)

(** X1: neither function touches a setting other than
    [extra_fields_spool]: every other row reads the same after the call,
    however the call ended. *)
Theorem other_settings_untouched (now : Z) (c : connection) (k : string) :
  k <> settings_key ->
  table (exec (upgrade now) c) !! k = table c !! k /\
  table (exec (downgrade now) c) !! k = table c !! k.
Proof.
  intros Hk. unfold exec. split.
  - destruct (upgrade_effect now c) as [(e & _ & ->) | [(_ & ->) | (l & w & _ & ->)]];
      try reflexivity.
    cbn [snd table]. apply lookup_insert_ne. congruence.
  - destruct (downgrade_effect now c)
      as [(e & _ & ->) | [(_ & ->) | (kept & _ & _ & _ & ->)]]; try reflexivity.
    cbn [snd table]. apply lookup_insert_ne. congruence.
Qed.

Lemma other_settings_untouched_witness :
  table (exec (upgrade 7) (conn_with_currency (Encoding (PyList [material])) 1)) !! "currency" =
    table (conn_with_currency (Encoding (PyList [material])) 1) !! "currency" /\
  table (exec (downgrade 7) (conn_with_currency (Encoding (PyList [material])) 1)) !! "currency" =
    table (conn_with_currency (Encoding (PyList [material])) 1) !! "currency".
Proof.
  apply (other_settings_untouched 7 (conn_with_currency (Encoding (PyList [material])) 1)
           "currency").
  unfold settings_key. discriminate.
Defined.

(** X2: a call executes at most one write, appended to the writes already
    executed; that write addresses [extra_fields_spool] and carries the
    current time, and the write of [downgrade] is never an [INSERT]. *)
Theorem at_most_one_write (now : Z) (c : connection) :
  (exists ws : list write,
     writes (exec (upgrade now) c) = (writes c ++ ws)%list /\
     length ws <= 1 /\
     Forall (fun w => write_key w = settings_key /\ write_updated w = now) ws) /\
  (exists ws : list write,
     writes (exec (downgrade now) c) = (writes c ++ ws)%list /\
     length ws <= 1 /\
     Forall (fun w => exists v, w = Update settings_key v now) ws).
Proof.
  unfold exec. split.
  - destruct (upgrade_effect now c) as [(e & _ & ->) | [(_ & ->) | (l & w & Hw & ->)]].
    + exists []. cbn [snd length]. rewrite app_nil_r. repeat split; [lia|constructor].
    + exists []. cbn [snd length]. rewrite app_nil_r. repeat split; [lia|constructor].
    + exists [w]. cbn [snd writes length]. repeat split; [lia|].
      constructor; [|constructor]. destruct Hw as [[-> _] | [-> _]]; split; reflexivity.
  - destruct (downgrade_effect now c)
      as [(e & _ & ->) | [(_ & ->) | (kept & _ & _ & _ & ->)]].
    + exists []. cbn [snd length]. rewrite app_nil_r. repeat split; [lia|constructor].
    + exists []. cbn [snd length]. rewrite app_nil_r. repeat split; [lia|constructor].
    + eexists [_]. cbn [snd writes length]. repeat split; [lia|].
      constructor; [eauto|constructor].
Qed.

(** X3: a call that raises has changed nothing: the table and the list of
    executed writes are as they were before the call. *)
Theorem raise_leaves_connection (now : Z) (c : connection) (e : exn) :
  (result (upgrade now) c = Raise e -> exec (upgrade now) c = c) /\
  (result (downgrade now) c = Raise e -> exec (downgrade now) c = c).
Proof.
  unfold result, exec. split.
  - destruct (upgrade_effect now c) as [(e' & _ & ->) | [(_ & ->) | (l & w & _ & ->)]];
      cbn [fst snd]; [reflexivity|discriminate|discriminate].
  - destruct (downgrade_effect now c)
      as [(e' & _ & ->) | [(_ & ->) | (kept & _ & _ & _ & ->)]];
      cbn [fst snd]; [reflexivity|discriminate|discriminate].
Qed.

Lemma raise_leaves_connection_witness :
  exec (upgrade 7) (conn_of (Undecodable "[{" Malformed) 1) =
    conn_of (Undecodable "[{" Malformed) 1 /\
  exec (downgrade 7) (conn_of (Encoding (PyList [material; PyInt 5])) 1) =
    conn_of (Encoding (PyList [material; PyInt 5])) 1.
Proof.
  split.
  - apply (proj1 (raise_leaves_connection 7 (conn_of (Undecodable "[{" Malformed) 1)
                    JSONDecodeError)).
    reflexivity.
  - apply (proj2 (raise_leaves_connection 7
                    (conn_of (Encoding (PyList [material; PyInt 5])) 1) AttributeError)).
    reflexivity.
Defined.



(** ** What a call that returns has achieved *)

Lemma any_key_is_nfc_id_true l :
  any_key_is_nfc_id l = Return true ->
  exists field, In field l /\ get field "key" = Return (PyStr "nfc_id").
Proof.
  induction l as [|field rest IH]; simpl; [discriminate|].
  destruct (get field "key") as [k|e] eqn:Hget; [|discriminate].
  destruct (eq_str k "nfc_id") eqn:Hk.
  - intros _. exists field. split; [left; reflexivity|].
    destruct k; try discriminate. apply String.eqb_eq in Hk. subst. exact Hget.
  - intros H. destruct (IH H) as (f & Hin & Hf). exists f. split; [right; exact Hin|exact Hf].
Qed.

(** X5: whenever [upgrade] returns, the entry exists, holds a JSON array,
    and the scan of that array finds an object whose [key] is [nfc_id]. *)
Theorem upgrade_returns_with_nfc_id (now : Z) (c : connection) :
  result (upgrade now) c = Return tt ->
  exists l field,
    stored_fields (exec (upgrade now) c) = Some (Encoding (PyList l)) /\
    any_key_is_nfc_id l = Return true /\
    In field l /\ get field "key" = Return (PyStr "nfc_id").
Proof.
  unfold result, exec, stored_fields. rewrite upgrade_unfold.
  destruct (table c !! settings_key) as [row|] eqn:Hrow.
  - destruct (merged (value row)) as [[fields|]|e] eqn:Hm.
    + apply merged_some in Hm as (l & _ & _ & ->). intros _.
      exists (nfc_field :: l), nfc_field. unfold execute_update. rewrite Hrow.
      cbn [snd table]. rewrite lookup_insert_eq.
      repeat split. left. reflexivity.
    + apply merged_none in Hm as (l & Hval & Hany). intros _.
      destruct (any_key_is_nfc_id_true l Hany) as (field & Hin & Hk).
      exists l, field. cbn [snd]. rewrite Hrow. cbn. rewrite Hval. auto.
    + discriminate.
  - intros _. exists [nfc_field], nfc_field. rewrite (lookup_inserted _ _ _ _ Hrow).
    cbn [snd table]. rewrite lookup_insert_eq. repeat split. left. reflexivity.
Qed.

Lemma upgrade_returns_with_nfc_id_witness :
  exists l field,
    stored_fields (exec (upgrade 7) (conn_of (Encoding (PyList [material; custom_nfc])) 1)) =
      Some (Encoding (PyList l)) /\
    any_key_is_nfc_id l = Return true /\
    In field l /\ get field "key" = Return (PyStr "nfc_id").
Proof.
  apply (upgrade_returns_with_nfc_id 7 (conn_of (Encoding (PyList [material; custom_nfc])) 1)).
  reflexivity.
Defined.

(** X6: whenever [downgrade] returns on an existing entry, the entry
    holds a JSON array of objects none of which has key [nfc_id], with
    [last_updated] set to the current time. *)
Theorem downgrade_returns_without_nfc_id (now : Z) (c : connection) :
  is_Some (table c !! settings_key) ->
  result (downgrade now) c = Return tt ->
  exists kept,
    table (exec (downgrade now) c) !! settings_key =
      Some (Setting (Encoding (PyList kept)) now) /\
    field_list kept /\
    existsb has_nfc_key kept = false.
Proof.
  intros Hsome. unfold result, exec.
  destruct (downgrade_effect now c)
    as [(e & _ & ->) | [(Hnone & _) | (kept & _ & Hfl & Hno & ->)]].
  - discriminate.
  - rewrite Hnone in Hsome. destruct Hsome as [row Hrow]. discriminate Hrow.
  - intros _. exists kept. cbn [snd table]. rewrite lookup_insert_eq. auto.
Qed.

Lemma downgrade_returns_without_nfc_id_witness :
  exists kept,
    table (exec (downgrade 7) (conn_of (Encoding (PyList [custom_nfc; color])) 1))
      !! settings_key = Some (Setting (Encoding (PyList kept)) 7) /\
    field_list kept /\
    existsb has_nfc_key kept = false.
Proof.
  apply (downgrade_returns_without_nfc_id 7 (conn_of (Encoding (PyList [custom_nfc; color])) 1)).
  - exists (Setting (Encoding (PyList [custom_nfc; color])) 1). reflexivity.
  - reflexivity.
Defined.

(** ** Rolling a merge back *)

Lemma filter_no_nfc_iff l :
  List.filter (fun field => negb (has_nfc_key field)) l = l <->
  existsb has_nfc_key l = false.
Proof.
  split; [|apply filter_no_nfc].
  intros Hfilter. destruct (existsb has_nfc_key l) eqn:Hex; [|reflexivity].
  apply existsb_exists in Hex as (field & Hin & Hyes).
  rewrite <- Hfilter in Hin. apply filter_In in Hin as [_ Hno].
  rewrite Hyes in Hno. discriminate Hno.
Qed.

Lemma merge_rollback_run t1 t2 c row l :
  table c !! settings_key = Some row ->
  value row = Encoding (PyList l) ->
  field_list l ->
  result (let* _ := upgrade t1 in downgrade t2) c = Return tt /\
  stored_fields (exec (let* _ := upgrade t1 in downgrade t2) c) =
    Some (Encoding (PyList (List.filter (fun field => negb (has_nfc_key field)) l))).
Proof.
  intros Hrow Hval Hfl. unfold result, exec, bind.
  destruct (existsb has_nfc_key l) eqn:Hex.
  - erewrite upgrade_with_nfc; [|exact Hrow|exact Hval|].
    + rewrite (downgrade_fields t2 c row l Hrow Hval Hfl). split; [reflexivity|].
      apply stored_fields_updated. rewrite Hrow. eauto.
    + rewrite any_key_is_nfc_id_fields by exact Hfl. rewrite Hex. reflexivity.
  - rewrite (upgrade_without_nfc t1 c row l Hrow Hval Hfl Hex).
    erewrite downgrade_fields;
      [| apply lookup_insert_eq | reflexivity | constructor; [reflexivity|exact Hfl] ].
    split; [reflexivity|].
    cbn [List.filter]. change (has_nfc_key nfc_field) with true. cbn [negb].
    apply stored_fields_updated. cbn [table]. rewrite lookup_insert_eq. eauto.
Qed.

(** X7: on a stored Field List, [upgrade] followed by [downgrade] returns
    and leaves the list without its [nfc_id] elements; so the rollback gives
    back the list from before the merge exactly when that list had no
    [nfc_id] element, and otherwise loses the ones it had. *)
Theorem upgrade_then_downgrade (t1 t2 : Z) (c : connection) (row : setting) (l : list val) :
  table c !! settings_key = Some row ->
  value row = Encoding (PyList l) ->
  field_list l ->
  result (let* _ := upgrade t1 in downgrade t2) c = Return tt /\
  stored_fields (exec (let* _ := upgrade t1 in downgrade t2) c) =
    Some (Encoding (PyList (List.filter (fun field => negb (has_nfc_key field)) l))) /\
  (stored_fields (exec (let* _ := upgrade t1 in downgrade t2) c) = stored_fields c <->
   existsb has_nfc_key l = false).
Proof.
  intros Hrow Hval Hfl.
  destruct (merge_rollback_run t1 t2 c row l Hrow Hval Hfl) as [Hres Hstored].
  split; [exact Hres|]. split; [exact Hstored|].
  rewrite Hstored. unfold stored_fields. rewrite Hrow. cbn. rewrite Hval.
  rewrite <- filter_no_nfc_iff. split; [intros [= H]; exact H|intros ->; reflexivity].
Qed.

Lemma upgrade_then_downgrade_witness :
  stored_fields (exec (let* _ := upgrade 3 in downgrade 5)
                   (conn_of (Encoding (PyList [material; color])) 1)) =
  stored_fields (conn_of (Encoding (PyList [material; color])) 1).
Proof.
  destruct (upgrade_then_downgrade 3 5 (conn_of (Encoding (PyList [material; color])) 1)
              (Setting (Encoding (PyList [material; color])) 1) [material; color]
              eq_refl eq_refl) as (_ & _ & Hiff).
  - repeat (constructor; [reflexivity|]). constructor.
  - apply Hiff. reflexivity.
Defined.

(** X8: rolling back a merge that created the entry does not remove the
    entry again: after [upgrade] and [downgrade] on a table without
    [extra_fields_spool], the row is there and holds the empty list. *)
Theorem fresh_entry_survives_rollback (t1 t2 : Z) (c : connection) :
  table c !! settings_key = None ->
  (let* _ := upgrade t1 in downgrade t2) c =
    (Return tt,
     {| table := <[settings_key := Setting (Encoding (PyList [])) t2]> (table c);
        writes := (writes c ++
                   [Insert settings_key (Encoding (PyList [nfc_field])) t1;
                    Update settings_key (Encoding (PyList [])) t2])%list |}).
Proof.
  intros Hrow. unfold bind. rewrite (upgrade_absent t1 c Hrow).
  erewrite downgrade_fields; [| apply lookup_insert_eq | reflexivity | ].
  - unfold execute_update. cbn [table writes]. rewrite lookup_insert_eq.
    rewrite insert_insert_eq, <- app_assoc. reflexivity.
  - constructor; [reflexivity|constructor].
Qed.

Lemma fresh_entry_survives_rollback_witness :
  stored_fields (exec (let* _ := upgrade 3 in downgrade 5) empty_conn) =
  Some (Encoding (PyList [])).
Proof.
  unfold exec. rewrite (fresh_entry_survives_rollback 3 5 empty_conn); reflexivity.
Defined.

(** X9: on a stored Field List, [downgrade] followed by [upgrade] returns
    and leaves the canonical descriptor in front of the other fields: any
    [nfc_id] element the list had, wherever it stood and whatever it held, is
    replaced by the one canonical descriptor at position 0. *)
Theorem downgrade_then_upgrade_canonical
    (t1 t2 : Z) (c : connection) (row : setting) (l : list val) :
  table c !! settings_key = Some row ->
  value row = Encoding (PyList l) ->
  field_list l ->
  (let* _ := downgrade t1 in upgrade t2) c =
    (Return tt,
     {| table :=
          <[settings_key :=
              Setting (Encoding (PyList (nfc_field ::
                         List.filter (fun field => negb (has_nfc_key field)) l))) t2]>
            (table c);
        writes :=
          (writes c ++
           [Update settings_key
              (Encoding (PyList (List.filter (fun field => negb (has_nfc_key field)) l))) t1;
            Update settings_key
              (Encoding (PyList (nfc_field ::
                         List.filter (fun field => negb (has_nfc_key field)) l))) t2])%list |}).
Proof.
  intros Hrow Hval Hfl. unfold bind.
  rewrite (downgrade_fields t1 c row l Hrow Hval Hfl).
  unfold execute_update at 1. rewrite Hrow.
  pose proof (without_nfc_id_fields l Hfl) as Hkept.
  apply without_nfc_id_kept in Hkept as [Hfl' Hno].
  erewrite upgrade_without_nfc;
    [| apply lookup_insert_eq | reflexivity | exact Hfl' | exact Hno ].
  cbn [table writes]. rewrite insert_insert_eq, <- app_assoc. reflexivity.
Qed.

Lemma downgrade_then_upgrade_canonical_witness :
  stored_fields (exec (let* _ := downgrade 3 in upgrade 5)
                   (conn_of (Encoding (PyList [material; custom_nfc; color])) 1)) =
  Some (Encoding (PyList [nfc_field; material; color])).
Proof.
  unfold exec.
  rewrite (downgrade_then_upgrade_canonical 3 5
             (conn_of (Encoding (PyList [material; custom_nfc; color])) 1)
             (Setting (Encoding (PyList [material; custom_nfc; color])) 1)
             [material; custom_nfc; color] eq_refl eq_refl).
  - reflexivity.
  - repeat (constructor; [reflexivity|]). constructor.
Defined.

(** ** The set of entries *)

(** X10: [downgrade] neither creates nor deletes a Setting Entry, however it
    ends; an [upgrade] that returns leaves exactly the entries there were,
    plus [extra_fields_spool]. *)
Theorem entries_after_a_call (now : Z) (c : connection) :
  dom (table (exec (downgrade now) c)) = dom (table c) /\
  (result (upgrade now) c = Return tt ->
   dom (table (exec (upgrade now) c)) = {[settings_key]} ∪ dom (table c)).
Proof.
  unfold result, exec. split.
  - destruct (downgrade_effect now c)
      as [(e & _ & ->) | [(_ & ->) | (kept & Hsome & _ & _ & ->)]]; try reflexivity.
    cbn [snd table]. rewrite dom_insert_L. apply elem_of_dom in Hsome.
    apply subseteq_union_1_L, singleton_subseteq_l, Hsome.
  - destruct (upgrade_effect now c) as [(e & _ & ->) | [(Hsome & ->) | (l & w & _ & ->)]];
      cbn [fst snd table].
    + discriminate.
    + intros _. apply elem_of_dom in Hsome. symmetry.
      apply subseteq_union_1_L, singleton_subseteq_l, Hsome.
    + intros _. apply dom_insert_L.
Qed.

Lemma entries_after_a_call_witness :
  dom (table (exec (upgrade 7) empty_conn)) = {[settings_key]} ∪ dom (table empty_conn).
Proof.
  apply (proj2 (entries_after_a_call 7 empty_conn)). reflexivity.
Defined.

(** ** Which exception, and when *)

(** X11: a stored JSON [null], boolean or number makes both functions
    raise [TypeError] (the value cannot be iterated) with the connection
    untouched. *)
Theorem scalar_value_raises (now : Z) (c : connection) (row : setting) (v : val) :
  table c !! settings_key = Some row ->
  value row = Encoding v ->
  is_scalar v = true ->
  upgrade now c = (Raise TypeError, c) /\
  downgrade now c = (Raise TypeError, c).
Proof.
  intros Hrow Hval Hscalar. rewrite upgrade_unfold, downgrade_unfold, Hrow, Hval.
  destruct v; try discriminate Hscalar; split; reflexivity.
Qed.

Lemma scalar_value_raises_witness :
  upgrade 7 (conn_of (Encoding PyNone) 1) = (Raise TypeError, conn_of (Encoding PyNone) 1) /\
  downgrade 7 (conn_of (Encoding PyNone) 1) = (Raise TypeError, conn_of (Encoding PyNone) 1).
Proof.
  apply (scalar_value_raises 7 (conn_of (Encoding PyNone) 1) (Setting (Encoding PyNone) 1)
           PyNone); reflexivity.
Defined.

Lemma merged_str_or_dict v :
  is_str_or_dict v = true -> merged (Encoding v) = Raise AttributeError.
Proof.
  destruct v; try discriminate; intros _; unfold merged; simpl.
  - destruct s; reflexivity.
  - destruct items as [|[k x] rest]; reflexivity.
Qed.

Lemma unmerged_str_or_dict v :
  is_str_or_dict v = true ->
  unmerged (Encoding v) =
  if is_empty v then Return (PyList []) else Raise AttributeError.
Proof.
  destruct v; try discriminate; intros _; unfold unmerged; simpl.
  - destruct s; reflexivity.
  - destruct items as [|[k x] rest]; reflexivity.
Qed.

(** X12: a stored JSON string or JSON object always makes [upgrade] raise
    [AttributeError] without writing.  [downgrade] raises the same when the
    string or object is not empty; when it is empty, [downgrade] returns and
    overwrites it with the empty list. *)
Theorem string_or_object_value (now : Z) (c : connection) (row : setting) (v : val) :
  table c !! settings_key = Some row ->
  value row = Encoding v ->
  is_str_or_dict v = true ->
  upgrade now c = (Raise AttributeError, c) /\
  downgrade now c =
    (if is_empty v then
       (Return tt,
        {| table := <[settings_key := Setting (Encoding (PyList [])) now]> (table c);
           writes := (writes c ++ [Update settings_key (Encoding (PyList [])) now])%list |})
     else (Raise AttributeError, c)).
Proof.
  intros Hrow Hval Hsd. rewrite upgrade_unfold, downgrade_unfold, Hrow, Hval.
  rewrite (merged_str_or_dict v Hsd), (unmerged_str_or_dict v Hsd).
  split; [reflexivity|]. destruct (is_empty v); [|reflexivity].
  unfold execute_update. rewrite Hrow. reflexivity.
Qed.

Lemma string_or_object_value_witness :
  upgrade 7 (conn_of (Encoding (PyStr "nfc_id")) 1) =
    (Raise AttributeError, conn_of (Encoding (PyStr "nfc_id")) 1) /\
  downgrade 7 (conn_of (Encoding (PyStr "nfc_id")) 1) =
    (Raise AttributeError, conn_of (Encoding (PyStr "nfc_id")) 1).
Proof.
  apply (string_or_object_value 7 (conn_of (Encoding (PyStr "nfc_id")) 1)
           (Setting (Encoding (PyStr "nfc_id")) 1) (PyStr "nfc_id")); reflexivity.
Defined.

Lemma without_nfc_id_non_dict pre x post :
  field_list pre ->
  is_dict x = false ->
  without_nfc_id (pre ++ x :: post)%list = Raise AttributeError.
Proof.
  intros Hfl Hx. induction Hfl as [|field rest Hd _ IH]; simpl.
  - destruct x; try discriminate Hx; reflexivity.
  - destruct field; try discriminate Hd. simpl. rewrite IH. reflexivity.
Qed.

Lemma any_key_is_nfc_id_non_dict pre x post :
  field_list pre ->
  is_dict x = false ->
  any_key_is_nfc_id (pre ++ x :: post)%list =
  if existsb has_nfc_key pre then Return true else Raise AttributeError.
Proof.
  intros Hfl Hx. induction Hfl as [|field rest Hd _ IH]; simpl.
  - destruct x; try discriminate Hx; reflexivity.
  - destruct field; try discriminate Hd. unfold has_nfc_key at 1, key_of. simpl.
    destruct (eq_str _ _); simpl; [reflexivity|exact IH].
Qed.

(** X13: when the stored array has an element that is not an object,
    [downgrade] raises [AttributeError] and writes nothing.  [upgrade] does
    the same unless an object with key [nfc_id] stands before the first such
    element: then its scan stops early and it returns, again without
    writing. *)
Theorem non_object_element
    (now : Z) (c : connection) (row : setting) (pre : list val) (x : val) (post : list val) :
  table c !! settings_key = Some row ->
  value row = Encoding (PyList (pre ++ x :: post)%list) ->
  field_list pre ->
  is_dict x = false ->
  downgrade now c = (Raise AttributeError, c) /\
  upgrade now c =
    (if existsb has_nfc_key pre then Return tt else Raise AttributeError, c).
Proof.
  intros Hrow Hval Hfl Hx.
  rewrite upgrade_unfold, downgrade_unfold, Hrow, Hval, merged_list, unmerged_list.
  rewrite (without_nfc_id_non_dict pre x post Hfl Hx).
  rewrite (any_key_is_nfc_id_non_dict pre x post Hfl Hx).
  split; [reflexivity|]. destruct (existsb has_nfc_key pre); reflexivity.
Qed.

Lemma non_object_element_witness :
  downgrade 7 (conn_of (Encoding (PyList [material; PyStr "color"; nfc_field])) 1) =
    (Raise AttributeError, conn_of (Encoding (PyList [material; PyStr "color"; nfc_field])) 1) /\
  upgrade 7 (conn_of (Encoding (PyList [material; PyStr "color"; nfc_field])) 1) =
    (Raise AttributeError, conn_of (Encoding (PyList [material; PyStr "color"; nfc_field])) 1).
Proof.
  apply (non_object_element 7
           (conn_of (Encoding (PyList [material; PyStr "color"; nfc_field])) 1)
           (Setting (Encoding (PyList [material; PyStr "color"; nfc_field])) 1)
           [material] (PyStr "color") [nfc_field]).
  - reflexivity.
  - reflexivity.
  - constructor; [reflexivity|constructor].
  - reflexivity.
Defined.

(** ** Running a step any number of times *)

Lemma run_each_cons (step : Z -> db unit) now later c :
  run_each step (now :: later) c =
  match step now c with
  | (Return _, c') => run_each step later c'
  | (Raise e, c') => (Raise e, c')
  end.
Proof. reflexivity. Qed.

Lemma run_each_stable (step : Z -> db unit) clock c :
  (forall now, exec (step now) c = c) ->
  exec (run_each step clock) c = c.
Proof.
  intros Hstable. induction clock as [|now later IH]; [reflexivity|].
  unfold exec in *. rewrite run_each_cons. specialize (Hstable now).
  destruct (step now c) as [[[]|e] c']; cbn [snd] in *; subst c'; [exact IH|reflexivity].
Qed.

(** X14: however many times [upgrade] is run in a row, the connection ends
    as the first run left it: no later run writes, not even to refresh
    [last_updated]. *)
Theorem repeated_upgrade (now : Z) (later : list Z) (c : connection) :
  exec (run_each upgrade (now :: later)) c = exec (upgrade now) c.
Proof.
  unfold exec at 1. rewrite run_each_cons.
  destruct (upgrade now c) as [[[]|e] c1] eqn:Hfirst.
  - change (exec (run_each upgrade later) c1 = exec (upgrade now) c).
    unfold exec at 2. rewrite Hfirst. cbn [snd].
    apply run_each_stable. intros t.
    pose proof (upgrade_twice now t c) as Htwice.
    unfold exec at 1 2 in Htwice. rewrite Hfirst in Htwice. cbn [snd] in Htwice.
    unfold exec. rewrite Htwice. reflexivity.
  - unfold exec. rewrite Hfirst. reflexivity.
Qed.

Lemma downgrade_run_fields_from later : forall now c,
  stored_fields (exec (run_each downgrade later) (exec (downgrade now) c)) =
  stored_fields (exec (downgrade now) c).
Proof.
  induction later as [|next later IH]; intros now c; [reflexivity|].
  unfold exec at 1. rewrite run_each_cons.
  destruct (downgrade next (exec (downgrade now) c)) as [[[]|e] c2] eqn:Hnext.
  - change (stored_fields (exec (run_each downgrade later) c2) =
            stored_fields (exec (downgrade now) c)).
    replace c2 with (exec (downgrade next) (exec (downgrade now) c))
      by (unfold exec at 1; rewrite Hnext; reflexivity).
    rewrite IH. apply downgrade_twice_fields.
  - cbn [snd]. replace c2 with (exec (downgrade next) (exec (downgrade now) c))
      by (unfold exec at 1; rewrite Hnext; reflexivity).
    apply downgrade_twice_fields.
Qed.

(** X15: however many times [downgrade] is run in a row, the Field List
    under [extra_fields_spool] ends as the first run left it. *)
Theorem repeated_downgrade (now : Z) (later : list Z) (c : connection) :
  stored_fields (exec (run_each downgrade (now :: later)) c) =
  stored_fields (exec (downgrade now) c).
Proof.
  unfold exec at 1. rewrite run_each_cons.
  destruct (downgrade now c) as [[[]|e] c1] eqn:Hfirst.
  - change (stored_fields (exec (run_each downgrade later) c1) =
            stored_fields (exec (downgrade now) c)).
    replace c1 with (exec (downgrade now) c) by (unfold exec; rewrite Hfirst; reflexivity).
    apply downgrade_run_fields_from.
  - unfold exec. rewrite Hfirst. reflexivity.
Qed.

Lemma downgrade_run_without_nfc l :
  field_list l ->
  existsb has_nfc_key l = false ->
  forall clock c row,
    table c !! settings_key = Some row ->
    value row = Encoding (PyList l) ->
    result (run_each downgrade clock) c = Return tt /\
    writes (exec (run_each downgrade clock) c) =
      (writes c ++ map (fun now => Update settings_key (Encoding (PyList l)) now) clock)%list.
Proof.
  intros Hfl Hno. induction clock as [|now later IH]; intros c row Hrow Hval.
  - split; [reflexivity|]. cbn. rewrite app_nil_r. reflexivity.
  - unfold result, exec. rewrite run_each_cons.
    rewrite (downgrade_without_nfc now c row l Hrow Hval Hfl Hno).
    match goal with |- context [run_each downgrade later ?c1] =>
      destruct (IH c1 (Setting (Encoding (PyList l)) now)) as [Hres Hwrites];
        [apply lookup_insert_eq|reflexivity|]
    end.
    unfold result, exec in Hres, Hwrites. split; [exact Hres|].
    rewrite Hwrites. cbn [writes map]. rewrite <- app_assoc. reflexivity.
Qed.

(** X16: on a stored Field List, every [downgrade] of a run returns and
    executes its own [UPDATE]: after the runs at the clock readings [clock]
    the connection has one more write per reading, each storing the list
    without its [nfc_id] elements under that reading's timestamp. *)
Theorem every_downgrade_writes
    (clock : list Z) (c : connection) (row : setting) (l : list val) :
  table c !! settings_key = Some row ->
  value row = Encoding (PyList l) ->
  field_list l ->
  result (run_each downgrade clock) c = Return tt /\
  writes (exec (run_each downgrade clock) c) =
    (writes c ++
     map (fun now =>
            Update settings_key
              (Encoding (PyList (List.filter (fun field => negb (has_nfc_key field)) l))) now)
         clock)%list.
Proof.
  intros Hrow Hval Hfl. destruct clock as [|now later].
  - split; [reflexivity|]. cbn. rewrite app_nil_r. reflexivity.
  - unfold result, exec. rewrite run_each_cons.
    rewrite (downgrade_fields now c row l Hrow Hval Hfl).
    unfold execute_update. rewrite Hrow.
    pose proof (without_nfc_id_fields l Hfl) as Hkept.
    apply without_nfc_id_kept in Hkept as [Hfl' Hno].
    match goal with |- context [run_each downgrade later ?c1] =>
      destruct (downgrade_run_without_nfc _ Hfl' Hno later c1
                  (Setting (Encoding (PyList
                     (List.filter (fun field => negb (has_nfc_key field)) l))) now))
        as [Hres Hwrites]; [apply lookup_insert_eq|reflexivity|]
    end.
    unfold result, exec in Hres, Hwrites. split; [exact Hres|].
    rewrite Hwrites. cbn [writes map]. rewrite <- app_assoc. reflexivity.
Qed.

Lemma every_downgrade_writes_witness :
  writes (exec (run_each downgrade [3; 5; 8]%Z)
            (conn_of (Encoding (PyList [nfc_field; material])) 1)) =
  [Update settings_key (Encoding (PyList [material])) 3;
   Update settings_key (Encoding (PyList [material])) 5;
   Update settings_key (Encoding (PyList [material])) 8].
Proof.
  refine (proj2 (every_downgrade_writes [3; 5; 8]%Z
                   (conn_of (Encoding (PyList [nfc_field; material])) 1)
                   (Setting (Encoding (PyList [nfc_field; material])) 1)
                   [nfc_field; material] _ _ _)).
  - reflexivity.
  - reflexivity.
  - repeat (constructor; [reflexivity|]). constructor.
Defined.
